(** * Controlled decompositions of single-qubit operations

    A shallow embedding of
    [pennylane/ops/op_math/controlled_decompositions.py]:
    the SU(2) parametrisation, the root-finder for the bisection factor,
    the ZYZ decomposer [ctrl_decomp_zyz] and the off-diagonal bisection
    decomposer [ctrl_decomp_bisect_od].

    Python floats are IEEE-754 binary64 numbers; they are modelled by Rocq's
    primitive floats, which are the same numbers with the same rounding.
    A complex number is a pair of floats, a 2x2 array a record of four
    complex entries.  Raised exceptions are values of [exception]; a function
    that may raise returns a [result]. *)

From Stdlib Require Import List String Bool Arith Lia Permutation.
From Stdlib Require Import ZArith Floats.
Import ListNotations.

Set Warnings "-inexact-float".
Set Implicit Arguments.

(** ** Python exceptions *)

Module Py.

Inductive exception : Type :=
| ValueError (msg : string)
| AssertionError (msg : string).

Inductive result (A : Type) : Type :=
| Return (a : A)
| Raise (e : exception).

Arguments Return {A} a.
Arguments Raise {A} e.

Definition bind {A B : Type} (r : result A) (k : A -> result B) : result B :=
  match r with
  | Return a => k a
  | Raise e => Raise e
  end.

(** [s] occurs in [msg], as [re.search] / [pytest.raises(match=...)] test
    it for a literal pattern. *)
Definition mentions (msg s : string) : Prop :=
  exists before after : string, msg = (before ++ s ++ after)%string.

End Py.

Import Py.

Notation "x <- c1 ;; c2" := (Py.bind c1 (fun x => c2))
  (at level 100, c1 at next level, right associativity).

(** ** The part of numpy the module uses *)

Module Np.

#[local] Open Scope float_scope.

(** [complex(re, im)]: a complex128 value. *)
Definition complex : Type := (float * float)%type.

Definition real (z : complex) : float := fst z.
Definition imag (z : complex) : float := snd z.

Definition conj (z : complex) : complex := (real z, - imag z).

Definition cadd (a b : complex) : complex :=
  (real a + real b, imag a + imag b).

Definition csub (a b : complex) : complex :=
  (real a - real b, imag a - imag b).

Definition cmul (a b : complex) : complex :=
  (real a * real b - imag a * imag b, real a * imag b + imag a * real b).

(** A 2x2 array, [[m00, m01], [m10, m11]]. *)
Record ndarray : Type := Array2 {
  m00 : complex; m01 : complex;
  m10 : complex; m11 : complex
}.

(** [m[0]]: the first row, a 1-d array. *)
Definition row0 (m : ndarray) : list complex := [m00 m; m01 m].

Definition transpose (m : ndarray) : ndarray :=
  Array2 (m00 m) (m10 m) (m01 m) (m11 m).

Definition conj_array (m : ndarray) : ndarray :=
  Array2 (conj (m00 m)) (conj (m01 m)) (conj (m10 m)) (conj (m11 m)).

(** [a - b], entry by entry. *)
Definition subtract (a b : ndarray) : ndarray :=
  Array2 (csub (m00 a) (m00 b)) (csub (m01 a) (m01 b))
         (csub (m10 a) (m10 b)) (csub (m11 a) (m11 b)).

(** [a @ b], the row-by-column product. *)
Definition matmul (a b : ndarray) : ndarray :=
  Array2 (cadd (cmul (m00 a) (m00 b)) (cmul (m01 a) (m10 b)))
         (cadd (cmul (m00 a) (m01 b)) (cmul (m01 a) (m11 b)))
         (cadd (cmul (m10 a) (m00 b)) (cmul (m11 a) (m10 b)))
         (cadd (cmul (m10 a) (m01 b)) (cmul (m11 a) (m11 b))).

Definition isfinite (x : float) : bool :=
  negb (is_nan x || is_infinity x).

(** numpy's [within_tol]. *)
Definition within_tol (x y atol rtol : float) : bool :=
  abs (x - y) <=? atol + rtol * abs y.

(** [np.isclose(x, y, rtol, atol)] on real scalars ([equal_nan] left at
    its default, [False]). *)
Definition isclose (x y rtol atol : float) : bool :=
  if isfinite x && isfinite y then within_tol x y atol rtol
  else x =? y.

(** The default tolerances of [np.isclose]. *)
Definition default_rtol : float := 1e-5.
Definition default_atol : float := 1e-8.

End Np.

Import Np.

(** ** The part of PennyLane the module uses *)

Module Qml.

(** [Wires]: an ordered sequence of wire labels.  [a + b] on wires that
    share no label is the concatenation [a ++ b]; [w[:k]] and [w[k:]] are
    [firstn k w] and [skipn k w]. *)
Definition Wires : Type := list nat.

(** What the decomposers read of a target [Operator]: the name of its
    class, its wires, its [single_qubit_rot_angles()] ([None] when the
    method raises [NotImplementedError]) and its dense matrix, which is
    read only once the operator is known to act on one wire. *)
Record Operator : Type := {
  class_name : string;
  wires : Wires;
  single_qubit_rot_angles : option (float * float * float);
  matrix : ndarray
}.

(** The operations the decomposers build, each with the arguments of the
    constructor call. *)
Inductive Operation : Type :=
| RZ (phi : float) (wires : Wires)
| RY (phi : float) (wires : Wires)
| MultiControlledX (control_wires : option Wires) (wires : Wires)
                   (work_wires : option Wires)
| QubitUnitary (U : ndarray) (wires : Wires)
| adjoint (base : Operation).

(** [qml.math.isclose] on Python floats is [np.isclose]. *)
Definition math_isclose (x y atol rtol : float) : bool :=
  Np.isclose x y rtol atol.

End Qml.

Import Qml.

(** ** Collaborators outside the module

    Routines of SciPy, LAPACK, numpy and of other PennyLane modules that the
    decomposers call.  Every result below holds for any implementation of
    them. *)

Module Spo.

(** [scipy.optimize.OptimizeResult], the fields that are read; [x] has the
    shape of the starting point, four reals. *)
Record OptimizeResult : Type := {
  success : bool;
  x : float * float * float * float
}.

End Spo.

Class Collaborators : Type := {
  (** [scipy.optimize.root(fun, x0)] *)
  spo_root : (float * float * float * float -> list float) ->
             float * float * float * float -> Spo.OptimizeResult;
  (** [numpy.linalg.det] *)
  npl_det : ndarray -> complex;
  (** [abs] of a complex128 value *)
  np_absolute : complex -> float;
  (** [_convert_to_su2] of
      [pennylane.transforms.decompositions.single_qubit_unitary] *)
  _convert_to_su2 : ndarray -> ndarray;
  (** the rotation angles of [qml.transforms.zyz_decomposition(U, wire)[0]] *)
  zyz_decomposition : ndarray -> Wires -> float * float * float;
  (** how an array is formatted inside an f-string *)
  format_array : ndarray -> string
}.

(** ** The module *)

Section ControlledDecompositions.

Context {lib : Collaborators}.

Open Scope float_scope.

(** [np.isclose(z, y, rtol, atol)] for a complex [z] and a real [y]. *)
Definition isclose_complex (z : complex) (y rtol atol : float) : bool :=
  if isfinite (real z) && isfinite (imag z) && isfinite y
  then np_absolute (csub z (y, 0)) <=? atol + rtol * abs y
  else (real z =? y) && (imag z =? 0).

Definition _matrix_adjoint (matrix : ndarray) : ndarray :=
  transpose (conj_array matrix).

Definition _param_su2 (ar ai br bi : float) : ndarray :=
  Array2 (ar, ai) (- br, bi)
         (br, bi) (ar, - ai).

(** [_param_su2( *x )] *)
Definition _param_su2_unpack (x : float * float * float * float) : ndarray :=
  let '(ar, ai, br, bi) := x in _param_su2 ar ai br bi.

(** On a 1-d array [flatten] changes nothing. *)
Definition _flatreals (x : list complex) : list float :=
  map real x ++ map imag x.

(** Pauli X matrix, its integer entries promoted to complex. *)
Definition sx : ndarray := Array2 (0, 0) (1, 0) (1, 0) (0, 0).

(** [at @ sx @ a @ sx @ at @ sx @ a @ sx], associated to the left. *)
Definition expect_u (a : ndarray) : ndarray :=
  let a_t := _matrix_adjoint a in
  matmul (matmul (matmul (matmul (matmul (matmul (matmul
    a_t sx) a) sx) a_t) sx) a) sx.

Definition optfunc (u : ndarray) (x : float * float * float * float)
  : list float :=
  let a := _param_su2_unpack x in
  _flatreals (row0 (subtract (expect_u a) u)).

Definition _bisect_compute_a (u : ndarray) : result ndarray :=
  let sol := spo_root (optfunc u) (1, 0, 0, 0) in
  if negb (Spo.success sol) then
    Raise (ValueError ("Unable to compute A matrix for U matrix "
                         ++ format_array u)%string)
  else
    let a := _param_su2_unpack (Spo.x sol) in
    if negb (isclose_complex (npl_det a) 1 default_rtol default_atol) then
      Raise (AssertionError
               ("A matrix is not SU(2): " ++ format_array a)%string)
    else
      Return a.

(** The error both decomposers raise for a target on several wires. *)
Definition not_single_qubit (target_operation : Operator) : exception :=
  ValueError ("The target operation must be a single-qubit operation, instead "
                ++ "got " ++ class_name target_operation ++ ".")%string.

(** The [try] / [except NotImplementedError] block of [ctrl_decomp_zyz]:
    the angles the operator exposes, else those of its ZYZ decomposition. *)
Definition rot_angles (target_operation : Operator) (target_wire : Wires)
  : float * float * float :=
  match single_qubit_rot_angles target_operation with
  | Some angles => angles
  | None => zyz_decomposition (matrix target_operation) target_wire
  end.

Definition ctrl_decomp_zyz (target_operation : Operator)
    (control_wires : Wires) : result (list Operation) :=
  if negb (List.length (wires target_operation) =? 1)%nat then
    Raise (not_single_qubit target_operation)
  else
    let target_wire := wires target_operation in
    let '(phi, theta, omega) := rot_angles target_operation target_wire in
    let decomp := [] in
    let decomp :=
      if negb (math_isclose phi 0 1e-8 0) then
        decomp ++ [RZ phi target_wire]
      else decomp in
    let decomp :=
      if negb (math_isclose (theta / 2) 0 1e-8 0) then
        decomp ++ [RY (theta / 2) target_wire;
                   MultiControlledX None (control_wires ++ target_wire) None;
                   RY ((- theta) / 2) target_wire]
      else
        decomp ++ [MultiControlledX None (control_wires ++ target_wire) None]
    in
    let decomp :=
      if negb (math_isclose ((- (phi + omega)) / 2) 0 1e-6 0) then
        decomp ++ [RZ ((- (phi + omega)) / 2) target_wire]
      else decomp in
    let decomp :=
      decomp ++ [MultiControlledX None (control_wires ++ target_wire) None] in
    let decomp :=
      if negb (math_isclose ((omega - phi) / 2) 0 1e-8 0) then
        decomp ++ [RZ ((omega - phi) / 2) target_wire]
      else decomp in
    Return decomp.

Definition ctrl_decomp_bisect_od (target_operation : Operator)
    (control_wires : Wires) : result (list Operation) :=
  if negb (List.length (wires target_operation) =? 1)%nat then
    Raise (not_single_qubit target_operation)
  else
    let target_wire := wires target_operation in
    let u := matrix target_operation in
    let u := _convert_to_su2 u in
    if negb (Np.isclose (imag (m10 u)) 0 default_rtol default_atol)
       || negb (Np.isclose (imag (m01 u)) 0 default_rtol default_atol)
    then
      Raise (ValueError
               ("Target operation's matrix must have real off-diagonal, but it is "
                  ++ format_array u)%string)
    else
      a <- _bisect_compute_a u ;;
      let mid := (List.length control_wires / 2)%nat in
      let lk := firstn mid control_wires in
      let rk := skipn mid control_wires in
      let mcx (_lk _rk : Wires) :=
        MultiControlledX (Some _lk) target_wire (Some _rk) in
      let op_mcx1 (_ : unit) := mcx lk rk in
      let op_mcx2 (_ : unit) := mcx rk lk in
      let op_a (_ : unit) := QubitUnitary a target_wire in
      let op_at (_ : unit) := adjoint (op_a tt) in
      Return [op_mcx1 tt; op_a tt; op_mcx2 tt; op_at tt;
              op_mcx1 tt; op_a tt; op_mcx2 tt; op_at tt].

End ControlledDecompositions.

(** ** Concrete collaborators and operators

    A small implementation of the collaborators, enough to run the
    decomposers on concrete inputs: the solver answers at its starting point
    (success exactly when the objective vanishes there), the determinant and
    the modulus are the textbook formulas, and the normaliser and the angle
    extractor are the ones of the identity matrix. *)

Module Concrete.

#[local] Open Scope float_scope.

Definition root_at_start (f : float * float * float * float -> list float)
    (x0 : float * float * float * float) : Spo.OptimizeResult :=
  {| Spo.success := forallb (fun r => r =? 0) (f x0); Spo.x := x0 |}.

Definition det (m : ndarray) : complex :=
  csub (cmul (m00 m) (m11 m)) (cmul (m01 m) (m10 m)).

Definition modulus (z : complex) : float :=
  sqrt (real z * real z + imag z * imag z).

Definition collaborators : Collaborators :=
  {| spo_root := root_at_start;
     npl_det := det;
     np_absolute := modulus;
     _convert_to_su2 := fun u => u;
     zyz_decomposition := fun _ _ => (0, 0, 0);
     format_array := fun _ => "<array>"%string |}.

Definition identity : ndarray := Array2 (1, 0) (0, 0) (0, 0) (1, 0).

(** [qml.Rot(phi, theta, omega, wires=w)] exposes its three angles; its
    matrix plays no part when the angles are exposed. *)
Definition Rot (phi theta omega : float) (w : nat) (m : ndarray) : Operator :=
  {| class_name := "Rot"; wires := [w];
     single_qubit_rot_angles := Some (phi, theta, omega);
     matrix := m |}.

(** [qml.RZ(phi, wires=w)] exposes the angles [(phi, 0, 0)]. *)
Definition RZ_op (phi : float) (w : nat) (m : ndarray) : Operator :=
  {| class_name := "RZ"; wires := [w];
     single_qubit_rot_angles := Some (phi, 0, 0);
     matrix := m |}.

(** [np.pi] *)
Definition pi : float := 3.141592653589793.

(** [qml.QubitUnitary(U, wires=w)] exposes no angles. *)
Definition QubitUnitary_op (U : ndarray) (w : nat) : Operator :=
  {| class_name := "QubitUnitary"; wires := [w];
     single_qubit_rot_angles := None;
     matrix := U |}.

(** [qml.CNOT(wires=[c, t])], a two-qubit operation; its 4x4 matrix is
    never read by the decomposers. *)
Definition CNOT (c t : nat) : Operator :=
  {| class_name := "CNOT"; wires := [c; t];
     single_qubit_rot_angles := None;
     matrix := identity |}.

End Concrete.

(** ** Vocabulary of the statements *)

Definition is_mcx (o : Operation) : bool :=
  match o with
  | MultiControlledX _ _ _ => true
  | _ => false
  end.

(** Two angles agree to three decimal places. *)
Definition agree_3dp (a b : float) : bool :=
  (abs (a - b) <? 0.0005)%float.

(** The objective as the specification words it: the real and the
    imaginary part of the (0,0) entry of the product minus the (0,0) entry
    of U, a 2-vector. *)
Definition objective_entry_00 (u : ndarray)
    (x : float * float * float * float) : list float :=
  let d := csub (m00 (expect_u (_param_su2_unpack x))) (m00 u) in
  [real d; imag d].

(** * Properties *)

(** ** Facts on binary64 numbers, from the specification of the
    primitive operations *)

Section Binary64.

#[local] Open Scope float_scope.

Lemma sub_zero (x : float) : x - 0 = x.
Proof.
  apply Prim2SF_inj. rewrite sub_spec.
  change (Prim2SF 0) with (S754_zero false).
  destruct (Prim2SF x) as [[|] | [|] | | s m e]; reflexivity.
Qed.

Lemma SFeqb_finite_refl (s : bool) (m : positive) (e : Z) :
  SFeqb (S754_finite s m e) (S754_finite s m e) = true.
Proof.
  unfold SFeqb, SFcompare.
  rewrite Z.compare_refl.
  change (Pos.compare_cont Eq m m) with (Pos.compare m m).
  rewrite Pos.compare_refl. now destruct s.
Qed.

(** A number that is not finite is a NaN or an infinity. *)
Lemma not_finite_cases (x : float) :
  isfinite x = false ->
  Prim2SF x = S754_nan \/ exists s : bool, Prim2SF x = S754_infinity s.
Proof.
  unfold isfinite, is_nan, is_infinity.
  rewrite !eqb_spec, abs_spec.
  change (Prim2SF infinity) with (S754_infinity false).
  destruct (Prim2SF x) as [s | s | | s m e]; eauto.
  - destruct s; discriminate.
  - rewrite SFeqb_finite_refl. discriminate.
Qed.

(** [np.isclose(x, 0)] with the default tolerances: [|x| <= 1e-8]. *)
Lemma isclose_zero_default (x : float) :
  Np.isclose x 0 default_rtol default_atol = (abs x <=? 1e-8).
Proof.
  unfold Np.isclose, within_tol. rewrite sub_zero.
  change (default_atol + default_rtol * abs 0) with 1e-8.
  change (isfinite 0) with true. rewrite andb_true_r.
  destruct (isfinite x) eqn:Hfin; [reflexivity |].
  rewrite eqb_spec, leb_spec, abs_spec.
  destruct (not_finite_cases x Hfin) as [-> | [s ->]]; [reflexivity |].
  now destruct s.
Qed.

End Binary64.

Section Properties.

Context {lib : Collaborators}.

Lemma mentions_middle (before s after : string) :
  mentions (before ++ s ++ after) s.
Proof. now exists before, after. Qed.

Lemma not_single_qubit_message (op : Operator) :
  exists msg : string,
    not_single_qubit op = ValueError msg
    /\ mentions msg "single-qubit operation"
    /\ mentions msg (class_name op).
Proof.
  eexists; split; [reflexivity | split].
  - exact (mentions_middle "The target operation must be a "
             "single-qubit operation"
             (", instead got " ++ class_name op ++ ".")).
  - exact (mentions_middle
             "The target operation must be a single-qubit operation, instead got "
             (class_name op) ".").
Qed.

Lemma length_wires_test (op : Operator) :
  negb (List.length (wires op) =? 1)%nat = true
  <-> List.length (wires op) <> 1%nat.
Proof.
  rewrite negb_true_iff, Nat.eqb_neq. reflexivity.
Qed.

(** The sequence [ctrl_decomp_zyz] builds, read off its four appends. *)
Lemma ctrl_decomp_zyz_single (op : Operator) (cw : Wires) :
  List.length (wires op) = 1%nat ->
  forall phi theta omega : float,
  rot_angles op (wires op) = (phi, theta, omega) ->
  let tw := wires op in
  let mcx := MultiControlledX None (cw ++ tw) None in
  ctrl_decomp_zyz op cw =
  Return
    ((if negb (math_isclose phi 0 1e-8 0) then [RZ phi tw] else [])
     ++ (if negb (math_isclose (theta / 2) 0 1e-8 0)
         then [RY (theta / 2) tw; mcx; RY ((- theta) / 2) tw]
         else [mcx])
     ++ (if negb (math_isclose ((- (phi + omega)) / 2) 0 1e-6 0)
         then [RZ ((- (phi + omega)) / 2) tw] else [])
     ++ [mcx]
     ++ (if negb (math_isclose ((omega - phi) / 2) 0 1e-8 0)
         then [RZ ((omega - phi) / 2) tw] else []))%float.
Proof.
  intros Hlen phi theta omega Hang tw mcx.
  unfold ctrl_decomp_zyz.
  rewrite Hlen, Hang. cbn [Nat.eqb negb].
  subst tw mcx.
  destruct (negb (math_isclose phi 0 1e-8 0));
    destruct (negb (math_isclose (theta / 2) 0 1e-8 0));
    destruct (negb (math_isclose ((- (phi + omega)) / 2) 0 1e-6 0));
    destruct (negb (math_isclose ((omega - phi) / 2) 0 1e-8 0));
    reflexivity.
Qed.

(** *** The ZYZ decomposer *)




(** C5: for [qml.Rot(0.123, 0.456, 0.789, wires=0)] and the control wires
    [1, 2, 3], [ctrl_decomp_zyz] returns exactly seven operations, in
    order RZ(phi), RY(theta/2), the multiply-controlled-NOT on
    [1, 2, 3, 0], RY(-theta/2), RZ(-(phi+omega)/2), the same
    multiply-controlled-NOT, RZ((omega-phi)/2), and their angles agree to
    three decimal places with 0.123, 0.228, -0.228, -0.456 and 0.333. *)
Theorem zyz_rot_scenario (m : ndarray) :
  ctrl_decomp_zyz (Concrete.Rot 0.123 0.456 0.789 0 m) [1; 2; 3] =
  Return [RZ 0.123 [0];
          RY (0.456 / 2) [0];
          MultiControlledX None [1; 2; 3; 0] None;
          RY ((- 0.456) / 2) [0];
          RZ ((- (0.123 + 0.789)) / 2) [0];
          MultiControlledX None [1; 2; 3; 0] None;
          RZ ((0.789 - 0.123) / 2) [0]]
  /\ (agree_3dp 0.123 0.123
      && agree_3dp (0.456 / 2) 0.228
      && agree_3dp ((- 0.456) / 2) (-0.228)
      && agree_3dp ((- (0.123 + 0.789)) / 2) (-0.456)
      && agree_3dp ((0.789 - 0.123) / 2) 0.333) = true.
Proof.
  split; reflexivity.
Qed.

(** C7: for every target operation that does not act on exactly one wire,
    [ctrl_decomp_zyz] and [ctrl_decomp_bisect_od] both raise a [ValueError]
    whose message mentions "single-qubit operation" and the name of the
    operator's class; the outcome is the raise alone, whatever the
    collaborators are, so no operation has been built. *)
Theorem multi_qubit_target_rejected (op : Operator) (cw : Wires) :
  List.length (wires op) <> 1%nat ->
  exists msg : string,
    ctrl_decomp_zyz op cw = Raise (ValueError msg)
    /\ ctrl_decomp_bisect_od op cw = Raise (ValueError msg)
    /\ mentions msg "single-qubit operation"
    /\ mentions msg (class_name op).
Proof.
  intros Hlen. apply length_wires_test in Hlen.
  destruct (not_single_qubit_message op) as (msg & Hmsg & Hsq & Hcls).
  exists msg. unfold ctrl_decomp_zyz, ctrl_decomp_bisect_od.
  rewrite Hlen, Hmsg. auto.
Qed.

(** *** The root-finder for the bisection factor *)

(** C2 (as the code has it): the objective handed to the solver flattens
    the real and the imaginary parts of the first row, entries (0,0) and
    (0,1), of the difference between the product
    A^dagger X A X A^dagger X A X and U into the 4-vector
    [Re d00; Re d01; Im d00; Im d01]; the search over the four parameters
    starts at (ar, ai, br, bi) = (1, 0, 0, 0), where [_param_su2] gives the
    identity (its zeros signed as written), and the outcome of the
    root-finder is read off the solver's answer on that objective from that
    start. *)
Theorem bisect_objective_first_row (u : ndarray) :
  (forall x : float * float * float * float,
      let d := subtract (expect_u (_param_su2_unpack x)) u in
      optfunc u x = [real (m00 d); real (m01 d); imag (m00 d); imag (m01 d)]
      /\ List.length (optfunc u x) = 4)
  /\ _param_su2_unpack (1, 0, 0, 0)%float
     = Array2 (1, 0)%float (-0, 0)%float (0, 0)%float (1, -0)%float
  /\ (let sol := spo_root (optfunc u) (1, 0, 0, 0)%float in
      let a := _param_su2_unpack (Spo.x sol) in
      _bisect_compute_a u =
      if Spo.success sol then
        if isclose_complex (npl_det a) 1 default_rtol default_atol
        then Return a
        else Raise (AssertionError
                      ("A matrix is not SU(2): " ++ format_array a)%string)
      else Raise (ValueError
                    ("Unable to compute A matrix for U matrix "
                       ++ format_array u)%string)).
Proof.
  split; [| split].
  - intros x d. split; reflexivity.
  - reflexivity.
  - cbv zeta. unfold _bisect_compute_a.
    destruct (Spo.success _); cbn [negb]; [| reflexivity].
    destruct (isclose_complex _ _ _ _); reflexivity.
Qed.

(** C8: with [sol] the solver's answer and [a] the matrix of its
    parameters, the root-finder raises a [ValueError] exactly when the
    solver reports non-convergence, and its message ends with the target
    matrix U; it raises an [AssertionError] exactly when the solver
    converged and the determinant of [a] is not within tolerance of 1, and
    its message ends with [a]; otherwise, and only then, it returns [a]. *)
Theorem bisect_compute_a_outcomes (u : ndarray) :
  let sol := spo_root (optfunc u) (1, 0, 0, 0)%float in
  let a := _param_su2_unpack (Spo.x sol) in
  let det_is_one :=
    isclose_complex (npl_det a) 1 default_rtol default_atol in
  ((exists msg : string, _bisect_compute_a u = Raise (ValueError msg))
     <-> Spo.success sol = false)
  /\ (Spo.success sol = false <->
      _bisect_compute_a u =
      Raise (ValueError ("Unable to compute A matrix for U matrix "
                           ++ format_array u)%string))
  /\ ((exists msg : string, _bisect_compute_a u = Raise (AssertionError msg))
      <-> Spo.success sol = true /\ det_is_one = false)
  /\ (Spo.success sol = true /\ det_is_one = false <->
      _bisect_compute_a u =
      Raise (AssertionError ("A matrix is not SU(2): "
                               ++ format_array a)%string))
  /\ (Spo.success sol = true /\ det_is_one = true <->
      _bisect_compute_a u = Return a)
  /\ (forall a' : ndarray, _bisect_compute_a u = Return a' -> a' = a).
Proof.
  cbv zeta. unfold _bisect_compute_a.
  destruct (Spo.success _); cbn [negb];
    [destruct (isclose_complex _ _ _ _); cbn [negb] |];
    repeat split; intros;
    repeat match goal with
           | H : exists _, _ |- _ => destruct H as [? H]
           | H : _ /\ _ |- _ => destruct H as [? ?]
           end;
    solve [ reflexivity | discriminate | congruence | eauto ].
Qed.

(** *** The off-diagonal bisection decomposer *)

Lemma bisect_compute_a_message (u : ndarray) (msg : string) :
  _bisect_compute_a u = Raise (ValueError msg) ->
  msg = ("Unable to compute A matrix for U matrix " ++ format_array u)%string.
Proof.
  unfold _bisect_compute_a.
  destruct (Spo.success _); cbn [negb];
    [destruct (isclose_complex _ _ _ _); cbn [negb] |];
    intros H; now inversion H.
Qed.

(** C9: for a target operation on one wire, with [u] the matrix that
    [_convert_to_su2] makes of the target's matrix,
    [ctrl_decomp_bisect_od] raises the [ValueError] whose message ends with
    [u] if and only if the imaginary part of [u[1,0]] or of [u[0,1]] is
    not within 1e-8 of zero; the entries tested are those of the normalised
    matrix [u]. *)
Theorem bisect_od_rejects_complex_off_diagonal (op : Operator) (cw : Wires) :
  List.length (wires op) = 1%nat ->
  let u := _convert_to_su2 (matrix op) in
  ((abs (imag (m10 u)) <=? 1e-8)%float = false
   \/ (abs (imag (m01 u)) <=? 1e-8)%float = false)
  <->
  ctrl_decomp_bisect_od op cw =
  Raise (ValueError
           ("Target operation's matrix must have real off-diagonal, but it is "
              ++ format_array u)%string).
Proof.
  intros Hlen u. unfold ctrl_decomp_bisect_od.
  rewrite Hlen. cbn [Nat.eqb negb]. fold u.
  rewrite !isclose_zero_default.
  destruct (abs (imag (m10 u)) <=? 1e-8)%float;
    destruct (abs (imag (m01 u)) <=? 1e-8)%float; cbn [negb orb];
    split; try solve [auto | reflexivity].
  - intros [H | H]; discriminate H.
  - destruct (_bisect_compute_a u) as [a | [msg | msg]] eqn:Ha;
      cbn [Py.bind]; try discriminate.
    apply bisect_compute_a_message in Ha. subst msg.
    intros H. inversion H.
Qed.


End Properties.

(** ** The statements at concrete inputs *)

Section Inputs.

Import Concrete.

#[local] Existing Instance Concrete.collaborators.

(** [[0, 1], [-1, 0]], of determinant 1 and real off-diagonal. *)
Definition real_od : ndarray := Array2 (0, 0)%float (1, 0)%float (-1, 0)%float (0, 0)%float.

(** [[0, 1j], [1j, 0]], of determinant 1 and imaginary off-diagonal. *)
Definition imag_od : ndarray := Array2 (0, 0)%float (0, 1)%float (0, 1)%float (0, 0)%float.

(** The repository's [test_trivial_ops_in_decomposition]: [RZ(pi)] under
    the control wire [1] gives five operations, none of them trivial. *)
Example trivial_ops_in_decomposition (m : ndarray) :
  ctrl_decomp_zyz (RZ_op pi 0 m) [1] =
  Return [RZ pi [0];
          MultiControlledX None [1; 0] None;
          RZ ((- pi) / 2) [0];
          MultiControlledX None [1; 0] None;
          RZ ((- pi) / 2) [0]].
Proof. reflexivity. Qed.

(** The repository's [test_invalid_op_error], for both decomposers. *)
Example invalid_op_error :
  ctrl_decomp_zyz (CNOT 0 1) [2] = Raise (not_single_qubit (CNOT 0 1))
  /\ ctrl_decomp_bisect_od (CNOT 0 1) [2] = Raise (not_single_qubit (CNOT 0 1)).
Proof. split; reflexivity. Qed.

(** For the target [[0, 1], [-1, 0]] the starting point is no root, and the
    solver that only tries its starting point reports it. *)
Example real_od_needs_a_search :
  _bisect_compute_a real_od =
  Raise (ValueError "Unable to compute A matrix for U matrix <array>").
Proof. reflexivity. Qed.





Lemma multi_qubit_target_rejected_witness :
  List.length (wires (CNOT 0 1)) <> 1
  /\ exists msg : string,
      ctrl_decomp_zyz (CNOT 0 1) [2] = Raise (ValueError msg)
      /\ ctrl_decomp_bisect_od (CNOT 0 1) [2] = Raise (ValueError msg)
      /\ mentions msg "single-qubit operation"
      /\ mentions msg (class_name (CNOT 0 1)).
Proof.
  split; [discriminate |].
  apply (multi_qubit_target_rejected (CNOT 0 1)). discriminate.
Defined.

(** C2, as stated, fails: at the starting point and for the target
    [[0, 1], [-1, 0]] the objective has four components, the second and
    the fourth coming from the (0,1) entries, where the specification's
    wording gives two. *)
Lemma objective_is_not_entry_00 :
  optfunc real_od (1, 0, 0, 0)%float = [1; -1; 0; 0]%float
  /\ objective_entry_00 real_od (1, 0, 0, 0)%float = [1; 0]%float
  /\ List.length (optfunc real_od (1, 0, 0, 0)%float) <> 2
  /\ optfunc real_od (1, 0, 0, 0)%float
     <> objective_entry_00 real_od (1, 0, 0, 0)%float.
Proof.
  repeat split; discriminate.
Qed.

Lemma bisect_od_rejects_complex_off_diagonal_witness :
  List.length (wires (QubitUnitary_op imag_od 0)) = 1
  /\ (((abs (imag (m10 (_convert_to_su2 imag_od))) <=? 1e-8)%float = false
       \/ (abs (imag (m01 (_convert_to_su2 imag_od))) <=? 1e-8)%float = false)
      <->
      ctrl_decomp_bisect_od (QubitUnitary_op imag_od 0) [1; 2] =
      Raise (ValueError
               ("Target operation's matrix must have real off-diagonal, but it is "
                  ++ format_array (_convert_to_su2 imag_od))%string)).
Proof.
  split; [reflexivity |].
  apply (bisect_od_rejects_complex_off_diagonal (QubitUnitary_op imag_od 0)).
  reflexivity.
Defined.


End Inputs.

(** * Further properties *)

(** ** More facts on binary64 numbers *)

Section Binary64Signs.

#[local] Open Scope float_scope.

Lemma opp_involutive (x : float) : - - x = x.
Proof.
  apply Prim2SF_inj. rewrite !opp_spec.
  destruct (Prim2SF x) as [s | s | | s m e]; cbn [SFopp];
    now rewrite ?negb_involutive.
Qed.


Lemma binary_round_aux_opp (s : bool) (m e : Z) (l : location) :
  binary_round_aux prec emax (negb s) m e l
  = SFopp (binary_round_aux prec emax s m e l).
Proof.
  unfold binary_round_aux.
  destruct (shr_fexp prec emax m e l) as [mrs' e'].
  destruct (shr_fexp prec emax _ e' loc_Exact) as [mrs'' e''].
  destruct (shr_m mrs'') as [| p | p]; [reflexivity | | reflexivity].
  now destruct (Z.leb e'' (emax - prec)).
Qed.

(** Negating the dividend negates the quotient, exactly. *)
Lemma div_opp_l (x y : float) : (- x) / y = - (x / y).
Proof.
  apply Prim2SF_inj. rewrite opp_spec, !div_spec, opp_spec.
  unfold SF64div.
  destruct (Prim2SF x) as [sx | sx | | sx mx ex],
           (Prim2SF y) as [sy | sy | | sy my ey];
    cbn [SFopp SFdiv]; rewrite <- ?negb_xorb_l; try reflexivity.
  destruct (SFdiv_core_binary prec emax (Z.pos mx) ex (Z.pos my) ey)
    as [[mz ez] lz].
  apply binary_round_aux_opp.
Qed.





End Binary64Signs.

(** ** Vocabulary *)


(** A returned value transformed, a raised exception left as it is. *)
Definition on_return {A B : Type} (f : A -> B) (r : result A) : result B :=
  match r with
  | Return a => Return (f a)
  | Raise e => Raise e
  end.


Section MatrixUtilities.

(** X1: taking the adjoint twice gives the matrix back, entry for entry. *)
Theorem matrix_adjoint_involutive (m : ndarray) :
  _matrix_adjoint (_matrix_adjoint m) = m.
Proof.
  destruct m as [[a00 b00] [a01 b01] [a10 b10] [a11 b11]].
  unfold _matrix_adjoint, transpose, conj_array, conj.
  cbn [m00 m01 m10 m11 real imag fst snd].
  now rewrite !opp_involutive.
Qed.

Lemma adjoint_of_param_su2 (ar ai br bi : float) :
  _matrix_adjoint (_param_su2 ar ai br bi) = _param_su2 ar (- ai) (- br) (- bi).
Proof.
  unfold _matrix_adjoint, _param_su2, transpose, conj_array, conj.
  cbn [m00 m01 m10 m11 real imag fst snd].
  now rewrite (opp_involutive br).
Qed.

(** X2: the adjoint of a matrix in the SU(2) form is again in the SU(2)
    form, with the parameters [(ar, -ai, -br, -bi)]; taken twice it gives
    the parameters back. *)
Theorem matrix_adjoint_param_su2 (ar ai br bi : float) :
  _matrix_adjoint (_param_su2 ar ai br bi) = _param_su2 ar (- ai) (- br) (- bi)
  /\ _matrix_adjoint (_param_su2 ar (- ai) (- br) (- bi))
     = _param_su2 ar ai br bi.
Proof.
  split; [apply adjoint_of_param_su2 |].
  rewrite adjoint_of_param_su2. now rewrite !opp_involutive.
Qed.

Lemma combine_real_imag (v : list complex) :
  combine (map real v) (map imag v) = v.
Proof.
  induction v as [| [re im] v IH]; [reflexivity |].
  cbn [map combine real imag fst snd]. now rewrite IH.
Qed.

(** X3: [_flatreals] of [n] complex numbers has [2 * n] entries, the [n]
    real parts followed by the [n] imaginary parts, and pairing its two
    halves gives the complex numbers back. *)
Theorem flatreals_round_trip (v : list complex) :
  let n := List.length v in
  List.length (_flatreals v) = 2 * n
  /\ firstn n (_flatreals v) = map real v
  /\ skipn n (_flatreals v) = map imag v
  /\ combine (firstn n (_flatreals v)) (skipn n (_flatreals v)) = v.
Proof.
  intros n. unfold _flatreals.
  assert (Hre : List.length (map real v) = n) by apply length_map.
  assert (Hfirst : firstn n (map real v ++ map imag v) = map real v).
  { rewrite firstn_app, Hre, Nat.sub_diag, firstn_O, app_nil_r.
    rewrite <- Hre. apply firstn_all. }
  assert (Hskip : skipn n (map real v ++ map imag v) = map imag v).
  { rewrite skipn_app, Hre, Nat.sub_diag, skipn_O.
    rewrite <- Hre, skipn_all. reflexivity. }
  rewrite Hfirst, Hskip, length_app, !length_map.
  repeat split; [lia | apply combine_real_imag].
Qed.

(** X4: the objective reads the first row of U only: two targets with the
    same first row give the solver the same objective. *)
Theorem optfunc_reads_first_row_only (u u' : ndarray)
    (x : float * float * float * float) :
  row0 u = row0 u' -> optfunc u x = optfunc u' x.
Proof.
  unfold row0. intros H. injection H as H00 H01.
  unfold optfunc, subtract, row0. cbn [m00 m01].
  now rewrite H00, H01.
Qed.

End MatrixUtilities.

Section DecomposerProperties.

Context {lib : Collaborators}.

(** *** More on the ZYZ decomposer *)

Lemma zyz_returns_single (op : Operator) (cw : Wires)
    (decomp : list Operation) :
  ctrl_decomp_zyz op cw = Return decomp -> List.length (wires op) = 1.
Proof.
  unfold ctrl_decomp_zyz.
  destruct (List.length (wires op) =? 1) eqn:Hlen; cbn [negb].
  - intros _. now apply Nat.eqb_eq.
  - discriminate.
Qed.




(** *** More on the off-diagonal bisection decomposer *)

(** The root-finder, by cases on the solver's answer. *)
Lemma bisect_compute_a_cases (u : ndarray) :
  let sol := spo_root (optfunc u) (1, 0, 0, 0)%float in
  let a := _param_su2_unpack (Spo.x sol) in
  _bisect_compute_a u =
  if Spo.success sol then
    if isclose_complex (npl_det a) 1 default_rtol default_atol
    then Return a
    else Raise (AssertionError
                  ("A matrix is not SU(2): " ++ format_array a)%string)
  else Raise (ValueError
                ("Unable to compute A matrix for U matrix "
                   ++ format_array u)%string).
Proof.
  cbv zeta. unfold _bisect_compute_a.
  destruct (Spo.success _); cbn [negb]; [| reflexivity].
  now destruct (isclose_complex _ _ _ _).
Qed.

(** The eight operations, for the factor [a]. *)
Lemma bisect_od_single (op : Operator) (cw : Wires) :
  List.length (wires op) = 1 ->
  let u := _convert_to_su2 (matrix op) in
  let t := wires op in
  let L := firstn (List.length cw / 2) cw in
  let R := skipn (List.length cw / 2) cw in
  ctrl_decomp_bisect_od op cw =
  if ((abs (imag (m10 u)) <=? 1e-8) && (abs (imag (m01 u)) <=? 1e-8))%float
  then on_return
         (fun a => [MultiControlledX (Some L) t (Some R);
                    QubitUnitary a t;
                    MultiControlledX (Some R) t (Some L);
                    adjoint (QubitUnitary a t);
                    MultiControlledX (Some L) t (Some R);
                    QubitUnitary a t;
                    MultiControlledX (Some R) t (Some L);
                    adjoint (QubitUnitary a t)])
         (_bisect_compute_a u)
  else Raise (ValueError
                ("Target operation's matrix must have real off-diagonal, but it is "
                   ++ format_array u)%string).
Proof.
  intros Hlen u t L R. unfold ctrl_decomp_bisect_od.
  rewrite Hlen. cbn [Nat.eqb negb]. fold u.
  rewrite !isclose_zero_default.
  destruct (abs (imag (m10 u)) <=? 1e-8)%float,
           (abs (imag (m01 u)) <=? 1e-8)%float; cbn [negb orb andb];
    reflexivity.
Qed.




(** What a returned sequence is made of. *)
Lemma bisect_od_returned (op : Operator) (cw : Wires)
    (ops : list Operation) :
  ctrl_decomp_bisect_od op cw = Return ops ->
  let t := wires op in
  let L := firstn (List.length cw / 2) cw in
  let R := skipn (List.length cw / 2) cw in
  exists a : ndarray,
    _bisect_compute_a (_convert_to_su2 (matrix op)) = Return a
    /\ ops = [MultiControlledX (Some L) t (Some R);
              QubitUnitary a t;
              MultiControlledX (Some R) t (Some L);
              adjoint (QubitUnitary a t);
              MultiControlledX (Some L) t (Some R);
              QubitUnitary a t;
              MultiControlledX (Some R) t (Some L);
              adjoint (QubitUnitary a t)].
Proof.
  intros Hret t L R.
  destruct (Nat.eq_dec (List.length (wires op)) 1) as [Hlen | Hlen].
  - rewrite (bisect_od_single op cw Hlen) in Hret.
    destruct (_ && _)%bool; [| discriminate Hret].
    destruct (_bisect_compute_a _) as [a | e]; [| discriminate Hret].
    exists a. split; [reflexivity |]. now injection Hret as <-.
  - apply length_wires_test in Hlen. unfold ctrl_decomp_bisect_od in Hret.
    rewrite Hlen in Hret. discriminate Hret.
Qed.

Lemma NoDup_app_disjoint {A : Type} (l1 l2 : list A) :
  NoDup (l1 ++ l2) -> forall a : A, In a l1 -> ~ In a l2.
Proof.
  induction l1 as [| b l1 IH]; cbn [app In]; intros Hnd a Hin Hin2;
    [contradiction |].
  inversion Hnd as [| ? ? Hnotin Hnd']; subst.
  destruct Hin as [-> | Hin].
  - apply Hnotin. apply in_or_app. now right.
  - exact (IH Hnd' a Hin Hin2).
Qed.

Lemma half_bounds (n : nat) : n / 2 <= n - n / 2 <= n / 2 + 1.
Proof.
  pose proof (Nat.div_mod_eq n 2) as Hdiv.
  pose proof (Nat.mod_upper_bound n 2 ltac:(discriminate)) as Hmod.
  lia.
Qed.

(** X11: in a returned sequence every multiply-controlled-NOT targets the
    target wire and splits the control wires between its control wires and
    its work wires: together they are the control wires, the two parts
    differ in size by at most one, and they share no wire when the control
    wires have no duplicate. *)
Theorem bisect_od_mcx_split (op : Operator) (cw : Wires)
    (ops : list Operation) :
  ctrl_decomp_bisect_od op cw = Return ops ->
  Forall (fun o =>
            is_mcx o = true ->
            exists c w : Wires,
              o = MultiControlledX (Some c) (wires op) (Some w)
              /\ Permutation (c ++ w) cw
              /\ List.length c <= List.length w + 1
              /\ List.length w <= List.length c + 1
              /\ (NoDup cw -> forall q : nat, In q c -> ~ In q w)) ops.
Proof.
  intros Hret.
  destruct (bisect_od_returned _ _ Hret) as (a & _ & ->).
  set (mid := List.length cw / 2).
  assert (Happ : firstn mid cw ++ skipn mid cw = cw) by apply firstn_skipn.
  assert (HL : List.length (firstn mid cw) = mid).
  { apply firstn_length_le. apply Nat.Div0.div_le_upper_bound. lia. }
  assert (HR : List.length (skipn mid cw) = List.length cw - mid)
    by apply length_skipn.
  pose proof (half_bounds (List.length cw)) as Hhalf. fold mid in Hhalf.
  assert (Hsplit : NoDup cw ->
                   forall q, In q (firstn mid cw) -> ~ In q (skipn mid cw)).
  { intros Hnd. rewrite <- Happ in Hnd.
    exact (NoDup_app_disjoint _ _ Hnd). }
  repeat constructor; intros Hmcx; try discriminate Hmcx.
  1, 3: exists (firstn mid cw), (skipn mid cw);
    split; [reflexivity |]; split; [now rewrite Happ |];
    repeat split; try lia; exact Hsplit.
  all: exists (skipn mid cw), (firstn mid cw);
    split; [reflexivity |];
    split; [transitivity (firstn mid cw ++ skipn mid cw);
            [apply Permutation_app_comm | now rewrite Happ] |];
    repeat split; try lia;
    intros Hnd q Hq Hq'; exact (Hsplit Hnd q Hq' Hq).
Qed.

(** X12: the first multiply-controlled-NOT of a returned sequence has no
    control wire exactly when there are fewer than two control wires, and
    no work wire exactly when there is no control wire at all. *)
Theorem bisect_od_few_control_wires (op : Operator) (cw : Wires)
    (ops : list Operation) :
  ctrl_decomp_bisect_od op cw = Return ops ->
  exists (c w : Wires) (rest : list Operation),
    ops = MultiControlledX (Some c) (wires op) (Some w) :: rest
    /\ (c = [] <-> List.length cw < 2)
    /\ (w = [] <-> cw = []).
Proof.
  intros Hret.
  destruct (bisect_od_returned _ _ Hret) as (a & _ & ->).
  do 3 eexists. split; [reflexivity |].
  destruct cw as [| q1 [| q2 cw]].
  - cbn. repeat split; auto; lia.
  - cbn. repeat split; auto; try lia; discriminate.
  - assert (Hmid : exists k, List.length (q1 :: q2 :: cw) / 2 = S k).
    { cbn [List.length].
      change (S (S (List.length cw))) with (2 + List.length cw).
      replace (2 + List.length cw) with (1 * 2 + List.length cw) by lia.
      rewrite Nat.div_add_l by discriminate. now eexists. }
    destruct Hmid as [k Hmid]. rewrite Hmid.
    pose proof (half_bounds (List.length (q1 :: q2 :: cw))) as Hhalf.
    rewrite Hmid in Hhalf.
    split; split; intros H; try discriminate H.
    + cbn [List.length] in H. lia.
    + apply (f_equal (@List.length nat)) in H.
      rewrite length_skipn in H. cbn [List.length] in H, Hhalf. lia.
Qed.

(** X13: a matrix the root-finder returns is in the SU(2) form, whatever
    the solver answered, and so is its adjoint, with the parameters
    [(ar, -ai, -br, -bi)]. *)
Theorem bisect_factor_su2_form (u a : ndarray) :
  _bisect_compute_a u = Return a ->
  exists ar ai br bi : float,
    a = _param_su2 ar ai br bi
    /\ _matrix_adjoint a = _param_su2 ar (- ai) (- br) (- bi).
Proof.
  intros Hret.
  pose proof (bisect_compute_a_cases u) as Hcases. cbv zeta in Hcases.
  rewrite Hcases in Hret.
  destruct (Spo.success _); [| discriminate Hret].
  destruct (isclose_complex _ _ _ _); [| discriminate Hret].
  injection Hret as <-.
  destruct (Spo.x _) as [[[ar ai] br] bi].
  exists ar, ai, br, bi. split; [reflexivity |].
  apply adjoint_of_param_su2.
Qed.

End DecomposerProperties.

(** ** The statements above at concrete inputs *)

Section MoreInputs.

Import Concrete.

#[local] Existing Instance Concrete.collaborators.

(** [[1, 0], [5+7j, 1]]: the first row of the identity, another second
    row. *)
Definition other_second_row : ndarray :=
  Array2 (1, 0)%float (0, 0)%float (5, 7)%float (1, 0)%float.

Lemma optfunc_reads_first_row_only_witness :
  row0 identity = row0 other_second_row
  /\ optfunc identity (1, 0, 0, 0)%float
     = optfunc other_second_row (1, 0, 0, 0)%float.
Proof.
  split; [reflexivity |].
  apply (@optfunc_reads_first_row_only identity other_second_row).
  reflexivity.
Defined.



(** The eight operations for the identity target under five control
    wires. *)
Definition identity_under_five : list Operation :=
  [MultiControlledX (Some [1; 2]) [0] (Some [3; 4; 5]);
   QubitUnitary (_param_su2 1 0 0 0) [0];
   MultiControlledX (Some [3; 4; 5]) [0] (Some [1; 2]);
   adjoint (QubitUnitary (_param_su2 1 0 0 0) [0]);
   MultiControlledX (Some [1; 2]) [0] (Some [3; 4; 5]);
   QubitUnitary (_param_su2 1 0 0 0) [0];
   MultiControlledX (Some [3; 4; 5]) [0] (Some [1; 2]);
   adjoint (QubitUnitary (_param_su2 1 0 0 0) [0])].

Lemma bisect_od_mcx_split_witness :
  ctrl_decomp_bisect_od (QubitUnitary_op identity 0) [1; 2; 3; 4; 5]
  = Return identity_under_five
  /\ Forall (fun o =>
               is_mcx o = true ->
               exists c w : Wires,
                 o = MultiControlledX (Some c)
                       (wires (QubitUnitary_op identity 0)) (Some w)
                 /\ Permutation (c ++ w) [1; 2; 3; 4; 5]
                 /\ List.length c <= List.length w + 1
                 /\ List.length w <= List.length c + 1
                 /\ (NoDup [1; 2; 3; 4; 5] ->
                     forall q : nat, In q c -> ~ In q w))
            identity_under_five.
Proof.
  split; [reflexivity |].
  apply (@bisect_od_mcx_split _ (QubitUnitary_op identity 0) [1; 2; 3; 4; 5]).
  reflexivity.
Defined.

(** The eight operations for the identity target under one control wire:
    the first multiply-controlled-NOT has no control wire. *)
Definition identity_under_one : list Operation :=
  [MultiControlledX (Some []) [0] (Some [1]);
   QubitUnitary (_param_su2 1 0 0 0) [0];
   MultiControlledX (Some [1]) [0] (Some []);
   adjoint (QubitUnitary (_param_su2 1 0 0 0) [0]);
   MultiControlledX (Some []) [0] (Some [1]);
   QubitUnitary (_param_su2 1 0 0 0) [0];
   MultiControlledX (Some [1]) [0] (Some []);
   adjoint (QubitUnitary (_param_su2 1 0 0 0) [0])].

Lemma bisect_od_few_control_wires_witness :
  ctrl_decomp_bisect_od (QubitUnitary_op identity 0) [1]
  = Return identity_under_one
  /\ exists (c w : Wires) (rest : list Operation),
      identity_under_one
      = MultiControlledX (Some c) (wires (QubitUnitary_op identity 0)) (Some w)
          :: rest
      /\ (c = [] <-> List.length [1] < 2)
      /\ (w = [] <-> [1] = []).
Proof.
  split; [reflexivity |].
  apply (@bisect_od_few_control_wires _ (QubitUnitary_op identity 0) [1]).
  reflexivity.
Defined.

Lemma bisect_factor_su2_form_witness :
  _bisect_compute_a identity = Return (_param_su2 1 0 0 0)
  /\ exists ar ai br bi : float,
      _param_su2 1 0 0 0 = _param_su2 ar ai br bi
      /\ _matrix_adjoint (_param_su2 1 0 0 0)
         = _param_su2 ar (- ai) (- br) (- bi).
Proof.
  split; [reflexivity |].
  apply (@bisect_factor_su2_form _ identity). reflexivity.
Defined.

End MoreInputs.

(** * The variational classifier example

    The loss and the accuracy of
    [examples/qubit/variational_classifier-iris.py].  Labels and
    predictions are 1-d arrays of floats, [zip] pairs them up to the shorter
    one, and the accumulator [loss] starts as the integer [0]. *)

Module VariationalClassifier.

#[local] Open Scope float_scope.

(** What a call gives: a float, or a [ZeroDivisionError]. *)
Inductive outcome : Type :=
| Value (v : float)
| ZeroDivisionError.

(** A Python number, an [int] or a [float]. *)
Inductive number : Type :=
| PyInt (n : Z)
| PyFloat (v : float).

(** [float(n)], the nearest binary64 number. *)
Definition float_of_int (n : Z) : float :=
  SF2Prim (binary_normalize prec emax n 0 false).

(** [a + b] for a float [b]. *)
Definition add_float (a : number) (b : float) : number :=
  match a with
  | PyInt n => PyFloat (float_of_int n + b)
  | PyFloat v => PyFloat (v + b)
  end.

(** [math.isclose(a, b, rel_tol, abs_tol)] *)
Definition isclose (a b rel_tol abs_tol : float) : bool :=
  if a =? b then true
  else if is_infinity a || is_infinity b then false
  else
    let diff := abs (b - a) in
    (diff <=? abs (rel_tol * b)) || (diff <=? abs (rel_tol * a))
    || (diff <=? abs_tol).

Section Losses.

(** [x ** 2] on floats, the C library's [pow(x, 2.0)]. *)
Variable square : float -> float.

(** [x / 0] for a float [x]: a [ZeroDivisionError] for a Python float, an
    infinity or a NaN for a numpy scalar. *)
Variable float_by_zero : float -> outcome.

(** [loss / n] for the integer [n]; the quotient of two integers is the
    quotient of their floats as long as both are below 2**53. *)
Definition truediv (loss : number) (n : Z) : outcome :=
  match loss with
  | PyInt k =>
      if (n =? 0)%Z then ZeroDivisionError
      else Value (float_of_int k / float_of_int n)
  | PyFloat v =>
      if (n =? 0)%Z then float_by_zero v
      else Value (v / float_of_int n)
  end.

Definition square_loss (labels predictions : list float) : outcome :=
  let loss := PyInt 0 in
  let loss :=
    fold_left (fun loss '(l, p) => add_float loss (square (l - p)))
              (combine labels predictions) loss in
  truediv loss (Z.of_nat (List.length labels)).

(** The [for] loop of [accuracy]: the number of pairs that are close. *)
Definition count_close (labels predictions : list float) : Z :=
  fold_left (fun loss '(l, p) =>
               if isclose l p 1e-9 1e-5 then (loss + 1)%Z else loss)
            (combine labels predictions) 0%Z.

Definition accuracy (labels predictions : list float) : outcome :=
  let loss := count_close labels predictions in
  truediv (PyInt loss) (Z.of_nat (List.length labels)).

End Losses.

End VariationalClassifier.

Section VariationalClassifierProperties.

Import VariationalClassifier.

Variable square : float -> float.
Variable float_by_zero : float -> outcome.

Lemma combine_firstn_length {A B : Type} (l : list A) (l' : list B) :
  combine l (firstn (List.length l) l') = combine l l'.
Proof.
  revert l'. induction l as [| a l IH]; intros [| b l']; cbn; try reflexivity.
  now rewrite IH.
Qed.

Lemma truediv_nonzero (loss : number) (n : Z) :
  n <> 0%Z -> exists v : float, truediv float_by_zero loss n = Value v.
Proof.
  intros Hn. apply Z.eqb_neq in Hn.
  destruct loss; cbn [truediv]; rewrite Hn; eauto.
Qed.

(** X14: [square_loss] and [accuracy] raise a [ZeroDivisionError] exactly
    when [labels] is empty, whatever the predictions are. *)
Theorem losses_fail_on_empty_labels (labels predictions : list float) :
  (square_loss square float_by_zero labels predictions = ZeroDivisionError
   <-> labels = [])
  /\ (accuracy float_by_zero labels predictions = ZeroDivisionError
      <-> labels = []).
Proof.
  destruct labels as [| l labels].
  - split; split; reflexivity.
  - assert (Hn : Z.of_nat (List.length (l :: labels)) <> 0%Z)
      by (cbn [List.length]; lia).
    split; split; intros H; try discriminate H.
    unfold square_loss in H.
    destruct (truediv_nonzero
                (fold_left (fun loss '(l, p) =>
                              add_float loss (square (l - p)%float))
                           (combine (l :: labels) predictions) (PyInt 0))
                Hn) as [v Hv].
    cbv zeta in H. congruence.
Qed.

(** X15: predictions beyond the number of labels are never read: both
    functions give the same on [predictions] and on its first
    [len(labels)] entries. *)
Theorem losses_ignore_surplus_predictions (labels predictions : list float) :
  square_loss square float_by_zero labels predictions
  = square_loss square float_by_zero labels
      (firstn (List.length labels) predictions)
  /\ accuracy float_by_zero labels predictions
     = accuracy float_by_zero labels (firstn (List.length labels) predictions).
Proof.
  unfold square_loss, accuracy, count_close.
  now rewrite combine_firstn_length.
Qed.

Lemma count_close_bounds (pairs : list (float * float)) (k : Z) :
  (k <= fold_left (fun loss '(l, p) =>
                     if isclose l p 1e-9 1e-5 then loss + 1 else loss)
                  pairs k
     <= k + Z.of_nat (List.length pairs))%Z.
Proof.
  revert k. induction pairs as [| [l p] pairs IH]; intros k.
  - cbn. lia.
  - cbn [fold_left List.length].
    destruct (isclose l p 1e-9 1e-5).
    + specialize (IH (k + 1)%Z). lia.
    + specialize (IH k). lia.
Qed.

(** X16: for labels that are not empty, [accuracy] is the quotient of a
    count by [len(labels)], and the count is at least 0 and at most the
    number of pairs, the smaller of the two lengths: labels without a
    prediction count as misses. *)
Theorem accuracy_is_a_share (labels predictions : list float) :
  labels <> [] ->
  exists k : Z,
    (0 <= k <= Z.of_nat (Nat.min (List.length labels)
                                 (List.length predictions)))%Z
    /\ accuracy float_by_zero labels predictions
       = Value (float_of_int k
                / float_of_int (Z.of_nat (List.length labels))).
Proof.
  intros Hne. exists (count_close labels predictions). split.
  - pose proof (count_close_bounds (combine labels predictions) 0) as H.
    rewrite length_combine in H. exact H.
  - unfold accuracy, truediv.
    destruct labels as [| l labels]; [contradiction |].
    reflexivity.
Qed.

Lemma not_self_equal_is_nan (v : float) : (v =? v)%float = false -> v = nan.
Proof.
  intros H. apply Prim2SF_inj.
  rewrite FloatAxioms.eqb_spec in H.
  change (Prim2SF nan) with S754_nan.
  destruct (Prim2SF v) as [s | s | | s m e]; try reflexivity.
  - now destruct s.
  - now destruct s.
  - now rewrite SFeqb_finite_refl in H.
Qed.

Lemma isclose_self (v : float) :
  isclose v v 1e-9 1e-5 = negb (is_nan v).
Proof.
  unfold isclose, is_nan.
  destruct (v =? v)%float eqn:H; [reflexivity |].
  now rewrite (not_self_equal_is_nan H).
Qed.

Lemma count_close_self_from (labels : list float) (k : Z) :
  fold_left (fun loss '(l, p) =>
               if isclose l p 1e-9 1e-5 then (loss + 1)%Z else loss)
            (combine labels labels) k
  = (k + Z.of_nat (List.length (filter (fun l => negb (is_nan l)) labels)))%Z.
Proof.
  revert k. induction labels as [| l labels IH]; intros k.
  - cbn. lia.
  - cbn [combine fold_left filter]. rewrite isclose_self, IH.
    destruct (negb (is_nan l)); cbn [List.length]; lia.
Qed.

(** X17: an array compared with itself scores every entry but the NaNs: a
    NaN label is never close to a prediction, not even to itself. *)
Theorem accuracy_of_labels_against_themselves (labels : list float) :
  labels <> [] ->
  accuracy float_by_zero labels labels
  = Value (float_of_int
             (Z.of_nat (List.length
                          (filter (fun l => negb (is_nan l)) labels)))
           / float_of_int (Z.of_nat (List.length labels))).
Proof.
  intros Hne. unfold accuracy, count_close.
  rewrite count_close_self_from, Z.add_0_l.
  destruct labels as [| l labels]; [contradiction | reflexivity].
Qed.

End VariationalClassifierProperties.

Section VariationalClassifierInputs.

Import VariationalClassifier.

Lemma accuracy_is_a_share_witness :
  [1; -1; 1]%float <> []
  /\ exists k : Z,
      (0 <= k <= Z.of_nat (Nat.min (List.length [1; -1; 1]%float)
                                   (List.length [1; 1]%float)))%Z
      /\ accuracy (fun _ => ZeroDivisionError) [1; -1; 1]%float [1; 1]%float
         = Value (float_of_int k
                  / float_of_int (Z.of_nat (List.length [1; -1; 1]%float))).
Proof.
  split; [discriminate |].
  apply (@accuracy_is_a_share (fun _ => ZeroDivisionError) [1; -1; 1]%float).
  discriminate.
Defined.

Lemma accuracy_of_labels_against_themselves_witness :
  [1; nan; infinity]%float <> []
  /\ accuracy (fun _ => ZeroDivisionError)
       [1; nan; infinity]%float [1; nan; infinity]%float
     = Value (float_of_int 2 / float_of_int 3).
Proof.
  split; [discriminate |].
  apply (@accuracy_of_labels_against_themselves (fun _ => ZeroDivisionError)
           [1; nan; infinity]%float).
  discriminate.
Defined.

End VariationalClassifierInputs.

(** * Two more properties of the decomposers *)

Definition is_ry (o : Operation) : bool :=
  match o with
  | RY _ _ => true
  | _ => false
  end.

Section Cancellation.

Context {lib : Collaborators}.

(** X18: the RY rotations of a sequence returned by [ctrl_decomp_zyz] are
    none, or two on the target wire whose angles are exact opposites, so
    that they cancel when the control wires are not all active. *)
Theorem zyz_ry_pair_cancels (op : Operator) (cw : Wires)
    (decomp : list Operation) :
  ctrl_decomp_zyz op cw = Return decomp ->
  filter is_ry decomp = []
  \/ exists a : float,
      filter is_ry decomp = [RY a (wires op); RY (- a) (wires op)].
Proof.
  intros Hret.
  pose proof (zyz_returns_single _ _ Hret) as Hlen.
  destruct (rot_angles op (wires op)) as [[phi theta] omega] eqn:Hang.
  rewrite (ctrl_decomp_zyz_single op cw Hlen Hang) in Hret.
  injection Hret as <-.
  rewrite !filter_app.
  destruct (negb (math_isclose phi 0 1e-8 0)),
           (negb (math_isclose (theta / 2) 0 1e-8 0)),
           (negb (math_isclose (- (phi + omega) / 2) 0 1e-6 0)),
           (negb (math_isclose ((omega - phi) / 2) 0 1e-8 0));
    cbn [filter is_ry app]; auto;
    right; exists (theta / 2)%float; now rewrite div_opp_l.
Qed.


End Cancellation.

Section CancellationInputs.

Import Concrete.

#[local] Existing Instance Concrete.collaborators.

Lemma zyz_ry_pair_cancels_witness :
  ctrl_decomp_zyz (Rot 0.123 0.456 0.789 0 identity) [1; 2; 3]
  = Return [RZ 0.123 [0];
            RY (0.456 / 2) [0];
            MultiControlledX None [1; 2; 3; 0] None;
            RY ((- 0.456) / 2) [0];
            RZ ((- (0.123 + 0.789)) / 2) [0];
            MultiControlledX None [1; 2; 3; 0] None;
            RZ ((0.789 - 0.123) / 2) [0]]
  /\ (filter is_ry [RZ 0.123 [0];
                    RY (0.456 / 2) [0];
                    MultiControlledX None [1; 2; 3; 0] None;
                    RY ((- 0.456) / 2) [0];
                    RZ ((- (0.123 + 0.789)) / 2) [0];
                    MultiControlledX None [1; 2; 3; 0] None;
                    RZ ((0.789 - 0.123) / 2) [0]] = []
      \/ exists a : float,
          filter is_ry [RZ 0.123 [0];
                        RY (0.456 / 2) [0];
                        MultiControlledX None [1; 2; 3; 0] None;
                        RY ((- 0.456) / 2) [0];
                        RZ ((- (0.123 + 0.789)) / 2) [0];
                        MultiControlledX None [1; 2; 3; 0] None;
                        RZ ((0.789 - 0.123) / 2) [0]]
          = [RY a (wires (Rot 0.123 0.456 0.789 0 identity));
             RY (- a) (wires (Rot 0.123 0.456 0.789 0 identity))]).
Proof.
  split; [reflexivity |].
  apply (@zyz_ry_pair_cancels _ (Rot 0.123 0.456 0.789 0 identity) [1; 2; 3]).
  reflexivity.
Defined.


End CancellationInputs.
